(** * The auction room engine of the socket server

    A shallow embedding of the socket handlers of the multi-auction server
    (the [HEAD] side of the server's entry file, the one with
    [auctionRooms]): the room registry [auctionRooms] with
    [getRoomState], and the handlers [join_auction], [start_player],
    [place_bid], [undo_bid], [toggle_pause], [sell_player], [unsell_player]
    and [reset_round].

    Every handler first resolves its room with [getRoomState] and then
    assigns fields of that room's state object.  A handler is embedded as a
    function from the room state to the new room state and the list of
    effects it issues before it returns or first suspends (room broadcasts,
    persistence calls); [dispatch] puts it behind the registry. *)

From Stdlib Require Import ZArith.
From stdpp Require Import gmap strings list fin_maps.

Local Open Scope Z_scope.

(** ** Data model *)

(** The values that reach the identifier fields [leadingTeamId] and
    [currentPlayerId]: the literal [null] of the baseline, [undefined] for
    a field that is absent from a payload, and identifier strings. *)
Inductive ident : Type :=
  | JNull
  | JUndefined
  | JStr (s : string).

(** [v === null] *)
Definition is_null (v : ident) : bool :=
  match v with
  | JNull => true
  | _ => false
  end.

(** JavaScript truthiness, as tested by [currentPlayerId && leadingTeamId]
    and [if (state.currentPlayerId)]: [null], [undefined] and the empty
    string are falsy. *)
Definition truthy (v : ident) : bool :=
  match v with
  | JStr EmptyString => false
  | JStr _ => true
  | _ => false
  end.

(** The status strings the handlers assign. *)
Inductive Status : Type := IDLE | ACTIVE | PAUSED | SOLD | UNSOLD.

(** [s === 'PAUSED'] *)
Definition is_paused (s : Status) : bool :=
  match s with
  | PAUSED => true
  | _ => false
  end.

(** Amounts ([basePrice], [amount], [currentBid], [bid]) are integers; the
    handlers only compare and store them, so they are taken in [Z].

    An entry of [bidHistory]: [{ bid, leader }]. *)
Record frame : Type := Frame { bid : Z; leader : ident }.

(** The state object of one room. [bidHistory] is a JavaScript array: the
    head of the list is its index 0, [push] appends at the end and [pop]
    removes the last entry. *)
Record RoomState : Type := Room {
  currentBid : Z;
  leadingTeamId : ident;
  currentPlayerId : ident;
  status : Status;
  bidHistory : list frame
}.

#[global] Instance ident_eq_dec : EqDecision ident.
Proof. solve_decision. Defined.
#[global] Instance Status_eq_dec : EqDecision Status.
Proof. solve_decision. Defined.
#[global] Instance frame_eq_dec : EqDecision frame.
Proof. solve_decision. Defined.
#[global] Instance RoomState_eq_dec : EqDecision RoomState.
Proof. solve_decision. Defined.

(** Field assignments [state.f = v]. *)
Definition set_currentBid (v : Z) (st : RoomState) : RoomState :=
  Room v (leadingTeamId st) (currentPlayerId st) (status st) (bidHistory st).
Definition set_leadingTeamId (v : ident) (st : RoomState) : RoomState :=
  Room (currentBid st) v (currentPlayerId st) (status st) (bidHistory st).
Definition set_currentPlayerId (v : ident) (st : RoomState) : RoomState :=
  Room (currentBid st) (leadingTeamId st) v (status st) (bidHistory st).
Definition set_status (v : Status) (st : RoomState) : RoomState :=
  Room (currentBid st) (leadingTeamId st) (currentPlayerId st) v (bidHistory st).
Definition set_bidHistory (v : list frame) (st : RoomState) : RoomState :=
  Room (currentBid st) (leadingTeamId st) (currentPlayerId st) (status st) v.

(** What a handler issues, in order, up to its first suspension point. *)
Inductive effect : Type :=
  | emit_auction_state (snapshot : RoomState)
      (* io.to(auctionId).emit('auction_state', state) *)
  | reply_auction_state (snapshot : RoomState)
      (* socket.emit('auction_state', state): the joining socket only *)
  | update_player_sold (playerId soldTo : ident) (soldPrice : Z)
      (* Player.findByIdAndUpdate(id, { isSold: true, soldTo, soldPrice }) *)
  | update_team_bought (teamId : ident) (spent : Z) (playerId : ident)
      (* Team.findByIdAndUpdate(id, { $inc: { spent }, $push: { players } }) *)
  | update_player_unsold (playerId : ident).
      (* Player.findByIdAndUpdate(id, { isSold: false, isUnsold: true }) *)

(** What the rest of an async handler issues once its awaited persistence
    calls have settled. *)
Inductive late_effect : Type :=
  | emit_data_update       (* io.to(auctionId).emit('data_update') *)
  | console_error          (* console.error(err) *)
  | unhandled_rejection.   (* the await throws out of the handler *)

(** ** Handlers on one room *)

(** The object that [getRoomState] stores for an unknown auction. *)
Definition baseline : RoomState :=
  {| currentBid := 0;
     leadingTeamId := JNull;
     currentPlayerId := JNull;
     status := IDLE;
     bidHistory := [] |}.

Definition start_player (playerId : ident) (basePrice : Z) (state : RoomState)
  : RoomState * list effect :=
  let state := set_currentBid basePrice state in
  let state := set_leadingTeamId JNull state in
  let state := set_currentPlayerId playerId state in
  let state := set_status ACTIVE state in
  let state := set_bidHistory [] state in
  (state, [emit_auction_state state]).

(** The two guards of [place_bid] that [return] early. *)
Definition bid_refused (state : RoomState) (amount : Z) : bool :=
  if is_null (leadingTeamId state)
  then amount <? currentBid state
  else amount <=? currentBid state.

Definition place_bid (teamId : ident) (amount : Z) (state : RoomState)
  : RoomState * list effect :=
  if bid_refused state amount then (state, [])
  else
    let state :=
      set_bidHistory
        (bidHistory state ++ [Frame (currentBid state) (leadingTeamId state)])
        state in
    let state := set_currentBid amount state in
    let state := set_leadingTeamId teamId state in
    (state, [emit_auction_state state]).

(** [bidHistory.length > 0] holds exactly when the array has a last entry;
    [pop] returns it and leaves the entries before it. *)
Definition undo_bid (state : RoomState) : RoomState * list effect :=
  match last (bidHistory state) with
  | Some prev =>
      let state := set_bidHistory (removelast (bidHistory state)) state in
      let state := set_currentBid (bid prev) state in
      let state := set_leadingTeamId (leader prev) state in
      (state, [emit_auction_state state])
  | None => (state, [])
  end.

Definition toggle_pause (state : RoomState) : RoomState * list effect :=
  let state :=
    set_status (if is_paused (status state) then ACTIVE else PAUSED) state in
  (state, [emit_auction_state state]).

Definition sell_player (state : RoomState) : RoomState * list effect :=
  let playerId := currentPlayerId state in
  let teamId := leadingTeamId state in
  let price := currentBid state in
  if truthy playerId && truthy teamId then
    let state := set_status SOLD state in
    let state := set_bidHistory [] state in
    (state, [emit_auction_state state;
             update_player_sold playerId teamId price;
             update_team_bought teamId price playerId])
  else (state, []).

Definition unsell_player (state : RoomState) : RoomState * list effect :=
  if truthy (currentPlayerId state) then
    let state := set_status UNSOLD state in
    (state, [emit_auction_state state;
             update_player_unsold (currentPlayerId state)])
  else (state, []).

Definition reset_round (state : RoomState) : RoomState * list effect :=
  let state := set_currentBid 0 state in
  let state := set_leadingTeamId JNull state in
  let state := set_currentPlayerId JNull state in
  let state := set_status IDLE state in
  (state, [emit_auction_state state]).

(** [join_auction] only reads the room. *)
Definition join_auction (state : RoomState) : RoomState * list effect :=
  (state, [reply_auction_state state]).

(** The tail of [sell_player] after [await Promise.all], inside its
    [try]/[catch]. *)
Definition sell_player_settled (resolved : bool) : list late_effect :=
  if resolved then [emit_data_update] else [console_error].

(** The tail of [unsell_player] after its [await], which is not guarded. *)
Definition unsell_player_settled (resolved : bool) : list late_effect :=
  if resolved then [emit_data_update] else [unhandled_rejection].

(** ** Messages and the room registry *)

Inductive action : Type :=
  | Join
  | StartPlayer (playerId : ident) (basePrice : Z)
  | PlaceBid (teamId : ident) (amount : Z)
  | UndoBid
  | TogglePause
  | SellPlayer
  | UnsellPlayer
  | ResetRound.

Definition handle (a : action) (state : RoomState) : RoomState * list effect :=
  match a with
  | Join => join_auction state
  | StartPlayer playerId basePrice => start_player playerId basePrice state
  | PlaceBid teamId amount => place_bid teamId amount state
  | UndoBid => undo_bid state
  | TogglePause => toggle_pause state
  | SellPlayer => sell_player state
  | UnsellPlayer => unsell_player state
  | ResetRound => reset_round state
  end.

(** [auctionRooms]: a [Map] from auction identifier to the room's state
    object.  Each key owns its object, created by [getRoomState] and never
    shared with another key, so the map of states stands for the store. *)
Abbreviation registry := (gmap string RoomState).

Definition getRoomState (auctionRooms : registry) (auctionId : string)
  : registry * RoomState :=
  match auctionRooms !! auctionId with
  | Some state => (auctionRooms, state)
  | None => (<[auctionId := baseline]> auctionRooms, baseline)
  end.

(** One incoming message: resolve the room, run the handler on its state
    object, tag what it emits with the room. *)
Definition dispatch (auctionRooms : registry) (msg : string * action)
  : registry * list (string * effect) :=
  let '(auctionId, a) := msg in
  let '(auctionRooms, state) := getRoomState auctionRooms auctionId in
  let '(state, out) := handle a state in
  (<[auctionId := state]> auctionRooms, (fun e => (auctionId, e)) <$> out).

(** Messages are handled one at a time, in arrival order. *)
Definition serve (auctionRooms : registry) (msgs : list (string * action))
  : registry :=
  foldl (fun rooms msg => fst (dispatch rooms msg)) auctionRooms msgs.

(** A run of messages for one room. *)
Definition run (state : RoomState) (acts : list action) : RoomState :=
  foldl (fun st a => fst (handle a st)) state acts.

(** A run of [place_bid] calls, each given as [(teamId, amount)]. *)
Definition place_bids (state : RoomState) (bids : list (ident * Z))
  : RoomState :=
  foldl (fun st b => fst (place_bid (fst b) (snd b) st)) state bids.

(** The calls of a run of bids that were not refused. *)
Fixpoint accepted_bids (state : RoomState) (bids : list (ident * Z))
  : list (ident * Z) :=
  match bids with
  | [] => []
  | b :: rest =>
      let next := fst (place_bid (fst b) (snd b) state) in
      if bid_refused state (snd b) then accepted_bids next rest
      else b :: accepted_bids next rest
  end.

(** The monetary input of a message is a non-negative integer. *)
Definition money_ok (a : action) : Prop :=
  match a with
  | StartPlayer _ basePrice => 0 <= basePrice
  | PlaceBid _ amount => 0 <= amount
  | _ => True
  end.

(** No amount of the room is negative: the standing bid and every bid kept
    for undo. *)
Definition amounts_ok (state : RoomState) : Prop :=
  0 <= currentBid state /\ Forall (fun f => 0 <= bid f) (bidHistory state).

(** What a run of team-naming bids from a room with empty history keeps
    true: either nothing was applied yet, or there is a leader, no kept
    frame exceeds the standing bid, and the standing bid is the opening
    amount or exceeds every kept frame. *)
Definition round_shape (start state : RoomState) : Prop :=
  state = start \/
  (leadingTeamId state <> JNull /\
   Forall (fun f => bid f <= currentBid state) (bidHistory state) /\
   (currentBid state = currentBid start \/
    Forall (fun f => bid f < currentBid state) (bidHistory state))).

(** The actions that a list of messages carries for one room, in arrival
    order. *)
Definition actions_for (auctionId : string) (msgs : list (string * action))
  : list action :=
  snd <$> filter (fun msg => fst msg = auctionId) msgs.

(** The state a viewer of a room is shown: what [getRoomState] returns. *)
Definition room_view (auctionRooms : registry) (auctionId : string)
  : RoomState :=
  snd (getRoomState auctionRooms auctionId).

(** The effects that are [auction_state] broadcasts to the room. *)
Definition is_broadcast (e : effect) : bool :=
  match e with
  | emit_auction_state _ => true
  | _ => false
  end.

(** The snapshots that a list of effects broadcasts to the room. *)
Definition snapshots (out : list effect) : list RoomState :=
  omap (fun e => match e with
                 | emit_auction_state snapshot => Some snapshot
                 | _ => None
                 end) out.

(** The [auction_state] snapshots a room's viewers receive over a run of
    actions, in order. *)
Fixpoint broadcast_log (state : RoomState) (acts : list action)
  : list RoomState :=
  match acts with
  | [] => []
  | a :: rest =>
      snapshots (snd (handle a state))
        ++ broadcast_log (fst (handle a state)) rest
  end.

(** The actions that stay inside a round: bids that name a team, undo,
    pause, unsell and join.  [start_player] opens another round, and
    [sell_player] and [reset_round] end one. *)
Definition in_round (a : action) : Prop :=
  match a with
  | PlaceBid teamId _ => teamId <> JNull
  | UndoBid | TogglePause | UnsellPlayer | Join => True
  | StartPlayer _ _ | SellPlayer | ResetRound => False
  end.

(** The shape of [bidHistory] inside a round opened at [basePrice]: empty
    with no leader and the base price standing, or the opening frame
    [(basePrice, null)] followed by frames that all have a leader, under a
    leader. *)
Definition round_frames (basePrice : Z) (state : RoomState) : Prop :=
  match bidHistory state with
  | [] => leadingTeamId state = JNull /\ currentBid state = basePrice
  | f :: rest =>
      f = Frame basePrice JNull /\
      Forall (fun g => leader g <> JNull) rest /\
      leadingTeamId state <> JNull
  end.

(** ** Sample identifiers and rooms *)

Definition teamA : ident := JStr "teamA".
Definition teamB : ident := JStr "teamB".
Definition player1 : ident := JStr "player1".

(** A round opened at 100 and not bid on yet. *)
Definition open_room : RoomState :=
  {| currentBid := 100; leadingTeamId := JNull; currentPlayerId := player1;
     status := ACTIVE; bidHistory := [] |}.

(** The same round after [toggle_pause]. *)
Definition paused_room : RoomState :=
  {| currentBid := 100; leadingTeamId := JNull; currentPlayerId := player1;
     status := PAUSED; bidHistory := [] |}.

(** The round after [teamA] opened at the base price. *)
Definition led_room : RoomState :=
  {| currentBid := 100; leadingTeamId := teamA; currentPlayerId := player1;
     status := ACTIVE; bidHistory := [Frame 100 JNull] |}.

(** ** Basic facts *)

Lemma open_room_reached :
  run baseline [StartPlayer player1 100] = open_room.
Proof. reflexivity. Qed.

Lemma paused_room_reached :
  run baseline [StartPlayer player1 100; TogglePause] = paused_room.
Proof. reflexivity. Qed.

Lemma led_room_reached :
  run baseline [StartPlayer player1 100; PlaceBid teamA 100] = led_room.
Proof. reflexivity. Qed.

Lemma is_null_true (v : ident) : is_null v = true <-> v = JNull.
Proof. destruct v; simpl; split; congruence. Qed.

Lemma is_null_false (v : ident) : is_null v = false <-> v <> JNull.
Proof. destruct v; simpl; split; congruence. Qed.

Lemma truthy_JStr (v : ident) :
  truthy v = true <-> exists s, v = JStr s /\ s <> EmptyString.
Proof.
  split.
  - destruct v as [| |s]; simpl; try discriminate.
    destruct s; [discriminate|]. intros _. eexists. split; [reflexivity|].
    discriminate.
  - intros (s & -> & Hs). destruct s; [contradiction|reflexivity].
Qed.

(** The early [return]s of [place_bid], as comparisons. *)
Lemma bid_refused_true (state : RoomState) (amount : Z) :
  bid_refused state amount = true <->
  (leadingTeamId state = JNull /\ amount < currentBid state) \/
  (leadingTeamId state <> JNull /\ amount <= currentBid state).
Proof.
  unfold bid_refused.
  destruct (is_null (leadingTeamId state)) eqn:Hn.
  - apply is_null_true in Hn. rewrite Z.ltb_lt. split.
    + intros H. left. split; assumption.
    + intros [[_ H]|[H _]]; [assumption|contradiction].
  - apply is_null_false in Hn. rewrite Z.leb_le. split.
    + intros H. right. split; assumption.
    + intros [[H _]|[_ H]]; [contradiction|assumption].
Qed.

Lemma bid_refused_false (state : RoomState) (amount : Z) :
  bid_refused state amount = false <->
  (leadingTeamId state = JNull /\ currentBid state <= amount) \/
  (leadingTeamId state <> JNull /\ currentBid state < amount).
Proof.
  unfold bid_refused.
  destruct (is_null (leadingTeamId state)) eqn:Hn.
  - apply is_null_true in Hn. rewrite Z.ltb_ge. split.
    + intros H. left. split; assumption.
    + intros [[_ H]|[H _]]; [assumption|contradiction].
  - apply is_null_false in Hn. rewrite Z.leb_gt. split.
    + intros H. right. split; assumption.
    + intros [[H _]|[_ H]]; [contradiction|assumption].
Qed.

(** An applied bid, written out field by field. *)
Lemma place_bid_applied (teamId : ident) (amount : Z) (state : RoomState) :
  bid_refused state amount = false ->
  place_bid teamId amount state =
    (let next :=
       {| currentBid := amount;
          leadingTeamId := teamId;
          currentPlayerId := currentPlayerId state;
          status := status state;
          bidHistory :=
            bidHistory state ++ [Frame (currentBid state) (leadingTeamId state)] |}
     in (next, [emit_auction_state next])).
Proof. intros H. unfold place_bid. rewrite H. reflexivity. Qed.

Lemma place_bid_dropped (teamId : ident) (amount : Z) (state : RoomState) :
  bid_refused state amount = true ->
  place_bid teamId amount state = (state, []).
Proof. intros H. unfold place_bid. rewrite H. reflexivity. Qed.

(** The guard [bidHistory.length > 0] of [undo_bid]. *)
Lemma last_None_length (h : list frame) :
  last h = None <-> length h = 0%nat.
Proof. rewrite last_None. destruct h; simpl; split; congruence. Qed.

Lemma removelast_snoc (h : list frame) (f : frame) :
  removelast (h ++ [f]) = h.
Proof. apply removelast_last. Qed.

(** The scenario of the specification: open at 100; [teamA] bids 100;
    [teamB] bids 100 and is refused; [teamB] bids 150; undo; sell. *)
Example scenario_bids :
  run baseline
    [StartPlayer player1 100; PlaceBid teamA 100; PlaceBid teamB 100;
     PlaceBid teamB 150]
  = Room 150 teamB player1 ACTIVE [Frame 100 JNull; Frame 100 teamA].
Proof. reflexivity. Qed.

Example scenario_undo_sell :
  let room :=
    run baseline
      [StartPlayer player1 100; PlaceBid teamA 100; PlaceBid teamB 100;
       PlaceBid teamB 150; UndoBid] in
  room = led_room /\
  sell_player room =
    (Room 100 teamA player1 SOLD [],
     [emit_auction_state (Room 100 teamA player1 SOLD []);
      update_player_sold player1 teamA 100;
      update_team_bought teamA 100 player1]).
Proof. split; reflexivity. Qed.

(** ** Bids and the status of the room *)

(** C1, as stated, fails: [place_bid] never reads [status].  In the paused
    room ([status] is [PAUSED]) a bid of 150 by [teamA] is applied: the
    standing bid, the leader and the history change and the new state is
    broadcast. *)
Lemma place_bid_applied_while_paused :
  status paused_room <> ACTIVE /\
  place_bid teamA 150 paused_room =
    (Room 150 teamA player1 PAUSED [Frame 100 JNull],
     [emit_auction_state (Room 150 teamA player1 PAUSED [Frame 100 JNull])]) /\
  place_bid teamA 150 paused_room <> (paused_room, []).
Proof. repeat split; discriminate. Qed.

(** C1, amended: in a room of any status, [place_bid] is dropped silently
    exactly when [amount < currentBid] with no leader ([leadingTeamId] is
    [null]) or [amount <= currentBid] with a leader; a dropped bid leaves
    the whole room state as it was and broadcasts nothing.  [status] is not
    read: in every other case, whatever the status, the bid is applied
    ([currentBid] and [leadingTeamId] set, the earlier pair pushed onto
    [bidHistory], [status] and [currentPlayerId] kept) and the new state
    is broadcast. *)
Theorem place_bid_dropped_silently
  (state : RoomState) (teamId : ident) (amount : Z) :
  ((leadingTeamId state = JNull /\ amount < currentBid state) \/
   (leadingTeamId state <> JNull /\ amount <= currentBid state) <->
   place_bid teamId amount state = (state, [])) /\
  ((leadingTeamId state = JNull /\ currentBid state <= amount) \/
   (leadingTeamId state <> JNull /\ currentBid state < amount) ->
   let applied :=
     {| currentBid := amount;
        leadingTeamId := teamId;
        currentPlayerId := currentPlayerId state;
        status := status state;
        bidHistory :=
          bidHistory state ++ [Frame (currentBid state) (leadingTeamId state)] |}
   in
   place_bid teamId amount state = (applied, [emit_auction_state applied])).
Proof.
  split.
  - rewrite <- bid_refused_true. split.
    + apply place_bid_dropped.
    + intros H. destruct (bid_refused state amount) eqn:Hr; [reflexivity|].
      rewrite (place_bid_applied _ _ _ Hr) in H. simpl in H. discriminate.
  - intros Hok. apply place_bid_applied, bid_refused_false. exact Hok.
Qed.

Lemma place_bid_dropped_silently_witness :
  place_bid teamA 50 paused_room = (paused_room, []) /\
  place_bid teamB 100 led_room = (led_room, []) /\
  place_bid teamA 150 paused_room =
    (Room 150 teamA player1 PAUSED [Frame 100 JNull],
     [emit_auction_state (Room 150 teamA player1 PAUSED [Frame 100 JNull])]).
Proof.
  split; [|split].
  - apply (proj1 (proj1 (place_bid_dropped_silently paused_room teamA 50))).
    left. split; [reflexivity|]. simpl. lia.
  - apply (proj1 (proj1 (place_bid_dropped_silently led_room teamB 100))).
    right. split; [discriminate|]. simpl. lia.
  - apply (proj2 (place_bid_dropped_silently paused_room teamA 150)).
    left. split; [reflexivity|]. simpl. lia.
Defined.

(** C4: in an [ACTIVE] room with no leader a bid of at least [currentBid]
    is applied and a lower one dropped; with a leader a bid above
    [currentBid] is applied and one equal or lower dropped.  An applied
    bid sets [currentBid] and [leadingTeamId] and pushes the pair that
    stood before onto [bidHistory]. *)
Theorem place_bid_rule (state : RoomState) (teamId : ident) (amount : Z) :
  status state = ACTIVE ->
  let applied :=
    {| currentBid := amount;
       leadingTeamId := teamId;
       currentPlayerId := currentPlayerId state;
       status := ACTIVE;
       bidHistory :=
         bidHistory state ++ [Frame (currentBid state) (leadingTeamId state)] |}
  in
  (leadingTeamId state = JNull -> currentBid state <= amount ->
   place_bid teamId amount state = (applied, [emit_auction_state applied])) /\
  (leadingTeamId state = JNull -> amount < currentBid state ->
   place_bid teamId amount state = (state, [])) /\
  (leadingTeamId state <> JNull -> currentBid state < amount ->
   place_bid teamId amount state = (applied, [emit_auction_state applied])) /\
  (leadingTeamId state <> JNull -> amount <= currentBid state ->
   place_bid teamId amount state = (state, [])).
Proof.
  intros Hst applied. subst applied. rewrite <- Hst.
  repeat split; intros Hl Ha.
  - apply place_bid_applied, bid_refused_false. left. split; assumption.
  - apply place_bid_dropped, bid_refused_true. left. split; assumption.
  - apply place_bid_applied, bid_refused_false. right. split; assumption.
  - apply place_bid_dropped, bid_refused_true. right. split; assumption.
Qed.

Lemma place_bid_rule_witness :
  place_bid teamA 100 open_room = (led_room, [emit_auction_state led_room]) /\
  place_bid teamA 99 open_room = (open_room, []) /\
  place_bid teamB 150 led_room =
    (Room 150 teamB player1 ACTIVE [Frame 100 JNull; Frame 100 teamA],
     [emit_auction_state
        (Room 150 teamB player1 ACTIVE [Frame 100 JNull; Frame 100 teamA])]) /\
  place_bid teamB 100 led_room = (led_room, []).
Proof.
  split; [|split; [|split]].
  - destruct (place_bid_rule open_room teamA 100 eq_refl) as (H & _).
    apply H; [reflexivity|simpl; lia].
  - destruct (place_bid_rule open_room teamA 99 eq_refl) as (_ & H & _).
    apply H; [reflexivity|simpl; lia].
  - destruct (place_bid_rule led_room teamB 150 eq_refl) as (_ & _ & H & _).
    apply H; [discriminate|simpl; lia].
  - destruct (place_bid_rule led_room teamB 100 eq_refl) as (_ & _ & _ & H).
    apply H; [discriminate|simpl; lia].
Defined.

(** C10: with no leader, a bid whose [teamId] is [null] and whose amount
    is at least [currentBid] is applied like any opening bid (amount
    stored, frame pushed, state broadcast) and leaves [leadingTeamId]
    [null], so the next bid is again checked by the opening rule: any
    amount at least the new [currentBid], equality included, passes. *)
Theorem place_bid_null_team (state : RoomState) (amount : Z) :
  leadingTeamId state = JNull ->
  currentBid state <= amount ->
  let next :=
    {| currentBid := amount;
       leadingTeamId := JNull;
       currentPlayerId := currentPlayerId state;
       status := status state;
       bidHistory := bidHistory state ++ [Frame (currentBid state) JNull] |}
  in
  place_bid JNull amount state = (next, [emit_auction_state next]) /\
  leadingTeamId (fst (place_bid JNull amount state)) = JNull /\
  forall amount', bid_refused next amount' = (amount' <? amount) /\
    (amount <= amount' -> forall teamId,
       place_bid teamId amount' next <> (next, [])).
Proof.
  intros Hl Ha next.
  assert (Hp : place_bid JNull amount state = (next, [emit_auction_state next])).
  { rewrite place_bid_applied.
    - subst next. simpl. rewrite Hl. reflexivity.
    - apply bid_refused_false. left. split; assumption. }
  split; [exact Hp|]. split; [rewrite Hp; reflexivity|].
  intros amount'. split; [reflexivity|].
  intros Hle teamId HD.
  assert (Hr : bid_refused next amount' = false).
  { apply bid_refused_false. left. split; [reflexivity|exact Hle]. }
  rewrite (place_bid_applied _ _ _ Hr) in HD. discriminate.
Qed.

Lemma place_bid_null_team_witness :
  place_bid JNull 100 open_room =
    (Room 100 JNull player1 ACTIVE [Frame 100 JNull],
     [emit_auction_state (Room 100 JNull player1 ACTIVE [Frame 100 JNull])]).
Proof.
  apply (place_bid_null_team open_room 100); [reflexivity|simpl; lia].
Defined.

(** ** Undo, pause, sale and reset *)

(** C5: [undo_bid] after an applied [place_bid] gives back the room state
    that stood before the bid ([currentBid], [leadingTeamId] and
    [bidHistory] included) and broadcasts it; on an empty [bidHistory]
    [undo_bid] changes nothing and broadcasts nothing. *)
Theorem undo_bid_inverts_place_bid
  (state : RoomState) (teamId : ident) (amount : Z) :
  (bid_refused state amount = false ->
   undo_bid (fst (place_bid teamId amount state)) =
     (state, [emit_auction_state state])) /\
  (bidHistory state = [] -> undo_bid state = (state, [])).
Proof.
  split.
  - intros Hr. rewrite (place_bid_applied _ _ _ Hr). unfold undo_bid. simpl.
    rewrite last_snoc, removelast_snoc. simpl. destruct state; reflexivity.
  - intros Hh. unfold undo_bid. rewrite Hh. reflexivity.
Qed.

Lemma undo_bid_inverts_place_bid_witness :
  undo_bid (fst (place_bid teamB 150 led_room)) =
    (led_room, [emit_auction_state led_room]) /\
  undo_bid open_room = (open_room, []).
Proof.
  split.
  - apply (proj1 (undo_bid_inverts_place_bid led_room teamB 150)). reflexivity.
  - apply (proj2 (undo_bid_inverts_place_bid open_room teamB 150)). reflexivity.
Defined.

(** C3, as stated, fails: in the [IDLE] baseline [toggle_pause] is not a
    no-op, it sets [status] to [PAUSED]; a second [toggle_pause] then
    gives [ACTIVE], not the original [IDLE]. *)
Lemma toggle_pause_from_idle :
  status baseline = IDLE /\
  fst (toggle_pause baseline) = Room 0 JNull JNull PAUSED [] /\
  fst (toggle_pause baseline) <> baseline /\
  fst (toggle_pause (fst (toggle_pause baseline))) =
    Room 0 JNull JNull ACTIVE [] /\
  status (fst (toggle_pause (fst (toggle_pause baseline)))) <> status baseline.
Proof. repeat split; discriminate. Qed.

(** C3, amended: [toggle_pause] sets [status] to [ACTIVE] when it is
    [PAUSED] and to [PAUSED] otherwise ([ACTIVE], [IDLE], [SOLD] and
    [UNSOLD] alike), changes no other field and broadcasts the new state.
    Applied twice it returns an [ACTIVE] or [PAUSED] room to its original
    state; from any other status the second application ends in [ACTIVE],
    still with no other field changed. *)
Theorem toggle_pause_flips (state : RoomState) :
  let once := fst (toggle_pause state) in
  let twice := fst (toggle_pause once) in
  toggle_pause state = (once, [emit_auction_state once]) /\
  once =
    {| currentBid := currentBid state;
       leadingTeamId := leadingTeamId state;
       currentPlayerId := currentPlayerId state;
       status := match status state with PAUSED => ACTIVE | _ => PAUSED end;
       bidHistory := bidHistory state |} /\
  twice =
    {| currentBid := currentBid state;
       leadingTeamId := leadingTeamId state;
       currentPlayerId := currentPlayerId state;
       status := match status state with PAUSED => PAUSED | _ => ACTIVE end;
       bidHistory := bidHistory state |} /\
  (status state = ACTIVE \/ status state = PAUSED -> twice = state).
Proof.
  destruct state as [b l p s h]. simpl.
  split; [reflexivity|].
  split; [destruct s; reflexivity|].
  split; [destruct s; reflexivity|].
  intros [-> | ->]; reflexivity.
Qed.

Lemma toggle_pause_flips_witness :
  fst (toggle_pause (fst (toggle_pause open_room))) = open_room /\
  fst (toggle_pause (fst (toggle_pause paused_room))) = paused_room.
Proof.
  split.
  - apply (toggle_pause_flips open_room). left. reflexivity.
  - apply (toggle_pause_flips paused_room). right. reflexivity.
Defined.

(** C6: when [leadingTeamId] or [currentPlayerId] is [null], [sell_player]
    changes nothing, broadcasts nothing and issues no persistence call;
    when both hold an identifier it sets [status] to [SOLD] and
    [bidHistory] to the empty array, keeps the other fields, broadcasts
    the state and issues the two persistence calls. *)
Theorem sell_player_guarded (state : RoomState) :
  (leadingTeamId state = JNull \/ currentPlayerId state = JNull ->
   sell_player state = (state, [])) /\
  (forall player team : string,
     currentPlayerId state = JStr player -> player <> EmptyString ->
     leadingTeamId state = JStr team -> team <> EmptyString ->
     let sold :=
       {| currentBid := currentBid state;
          leadingTeamId := leadingTeamId state;
          currentPlayerId := currentPlayerId state;
          status := SOLD;
          bidHistory := [] |} in
     sell_player state =
       (sold,
        [emit_auction_state sold;
         update_player_sold (JStr player) (JStr team) (currentBid state);
         update_team_bought (JStr team) (currentBid state) (JStr player)])).
Proof.
  split.
  - unfold sell_player. intros [-> | ->]; simpl.
    + rewrite andb_false_r. reflexivity.
    + reflexivity.
  - intros player team Hp Hpn Ht Htn.
    destruct state as [b l p s h]. simpl in *. subst l p.
    destruct player; [contradiction|]. destruct team; [contradiction|].
    reflexivity.
Qed.

Lemma sell_player_guarded_witness :
  sell_player open_room = (open_room, []) /\
  sell_player led_room =
    (Room 100 teamA player1 SOLD [],
     [emit_auction_state (Room 100 teamA player1 SOLD []);
      update_player_sold player1 teamA 100;
      update_team_bought teamA 100 player1]).
Proof.
  split.
  - apply (proj1 (sell_player_guarded open_room)). left. reflexivity.
  - apply (proj2 (sell_player_guarded led_room) "player1" "teamA");
      [reflexivity|discriminate|reflexivity|discriminate].
Defined.

(** The guard of [sell_player] is JavaScript truthiness: nothing happens
    exactly when one of the two identifiers is falsy. *)
Lemma sell_player_noop_iff (state : RoomState) :
  sell_player state = (state, []) <->
  truthy (currentPlayerId state) && truthy (leadingTeamId state) = false.
Proof.
  unfold sell_player.
  destruct (truthy (currentPlayerId state) && truthy (leadingTeamId state));
    split; intros H; try reflexivity; discriminate.
Qed.

(** C2: [reset_round] sets [currentBid] to 0, [leadingTeamId] and
    [currentPlayerId] to [null] and [status] to [IDLE], but does not assign
    [bidHistory], which every room keeps through a reset.  After a round
    opened at 100 with one bid of [teamA], the reset room still holds the
    frame of that bid, and [undo_bid] right after the reset restores the
    standing bid 100 in the [IDLE] room and broadcasts. *)
Theorem reset_round_keeps_bidHistory :
  (forall state,
     reset_round state =
       (Room 0 JNull JNull IDLE (bidHistory state),
        [emit_auction_state (Room 0 JNull JNull IDLE (bidHistory state))])) /\
  reset_round led_room =
    (Room 0 JNull JNull IDLE [Frame 100 JNull],
     [emit_auction_state (Room 0 JNull JNull IDLE [Frame 100 JNull])]) /\
  bidHistory (fst (reset_round led_room)) <> [] /\
  undo_bid (fst (reset_round led_room)) =
    (Room 100 JNull JNull IDLE [],
     [emit_auction_state (Room 100 JNull JNull IDLE [])]) /\
  undo_bid (fst (reset_round led_room)) <> (fst (reset_round led_room), []).
Proof.
  split; [intros state; reflexivity|].
  split; [reflexivity|].
  split; [discriminate|].
  split; [reflexivity|discriminate].
Qed.

(** ** Runs of bids *)

Lemma place_bids_snoc (state : RoomState) (pre : list (ident * Z)) b :
  place_bids state (pre ++ [b]) =
  fst (place_bid (fst b) (snd b) (place_bids state pre)).
Proof. unfold place_bids. rewrite foldl_snoc. reflexivity. Qed.

Lemma place_bids_cons (state : RoomState) b (rest : list (ident * Z)) :
  place_bids state (b :: rest) =
  place_bids (fst (place_bid (fst b) (snd b) state)) rest.
Proof. reflexivity. Qed.

(** One call never lowers the standing bid. *)
Lemma place_bid_monotone (teamId : ident) (amount : Z) (state : RoomState) :
  currentBid state <= currentBid (fst (place_bid teamId amount state)).
Proof.
  destruct (bid_refused state amount) eqn:Hr.
  - rewrite (place_bid_dropped _ _ _ Hr). simpl. lia.
  - rewrite (place_bid_applied _ _ _ Hr). simpl.
    apply bid_refused_false in Hr. lia.
Qed.

(** With a leader in place, an applied bid raises the standing bid. *)
Lemma place_bid_strict (teamId : ident) (amount : Z) (state : RoomState) :
  leadingTeamId state <> JNull ->
  bid_refused state amount = false ->
  currentBid state < currentBid (fst (place_bid teamId amount state)).
Proof.
  intros Hl Hr. rewrite (place_bid_applied _ _ _ Hr). simpl.
  apply bid_refused_false in Hr. destruct Hr as [[H _]|[_ H]]; [contradiction|lia].
Qed.

(** Bids that all name a team keep a leader once there is one. *)
Lemma leader_kept (bids : list (ident * Z)) :
  Forall (fun b => fst b <> JNull) bids ->
  forall state, leadingTeamId state <> JNull ->
  leadingTeamId (place_bids state bids) <> JNull.
Proof.
  induction 1 as [|b rest Hb _ IH]; intros state Hl; [exact Hl|].
  rewrite place_bids_cons. apply IH.
  destruct (bid_refused state (snd b)) eqn:Hr.
  - rewrite (place_bid_dropped _ _ _ Hr). exact Hl.
  - rewrite (place_bid_applied _ _ _ Hr). exact Hb.
Qed.

(** ... and have a leader as soon as one of them was applied. *)
Lemma leader_after_accepted (bids : list (ident * Z)) :
  Forall (fun b => fst b <> JNull) bids ->
  forall state, accepted_bids state bids <> [] ->
  leadingTeamId (place_bids state bids) <> JNull.
Proof.
  induction 1 as [|b rest Hb Hrest IH]; intros state Hacc; [contradiction|].
  rewrite place_bids_cons. simpl in Hacc.
  destruct (bid_refused state (snd b)) eqn:Hr.
  - apply IH. exact Hacc.
  - apply leader_kept; [exact Hrest|].
    rewrite (place_bid_applied _ _ _ Hr). exact Hb.
Qed.

Lemma round_shape_step (start state : RoomState) b :
  bidHistory start = [] ->
  fst b <> JNull ->
  round_shape start state ->
  round_shape start (fst (place_bid (fst b) (snd b) state)).
Proof.
  intros Hh Hb Hshape.
  destruct (bid_refused state (snd b)) eqn:Hr.
  { rewrite (place_bid_dropped _ _ _ Hr). exact Hshape. }
  rewrite (place_bid_applied _ _ _ Hr). simpl.
  apply bid_refused_false in Hr. right. simpl. split; [exact Hb|].
  destruct Hshape as [-> | (Hl & Hle & Hlt)].
  - rewrite Hh. simpl. split.
    + constructor; [simpl; lia|constructor].
    + destruct (Z.eq_dec (snd b) (currentBid start)) as [He|Hne];
        [left; exact He|right].
      constructor; [simpl; lia|constructor].
  - destruct Hr as [[Hn _]|[_ Hgt]]; [contradiction|].
    split.
    + apply Forall_app. split.
      * eapply Forall_impl; [exact Hle|]. simpl. intros f Hf. lia.
      * constructor; [simpl; lia|constructor].
    + right. apply Forall_app. split.
      * eapply Forall_impl; [exact Hle|]. simpl. intros f Hf. lia.
      * constructor; [simpl; lia|constructor].
Qed.

Lemma round_shape_run (start : RoomState) (bids : list (ident * Z)) :
  bidHistory start = [] ->
  Forall (fun b => fst b <> JNull) bids ->
  round_shape start (place_bids start bids).
Proof.
  intros Hh. induction bids as [|b pre IH] using rev_ind; intros Hbids.
  - left. reflexivity.
  - apply Forall_app in Hbids. destruct Hbids as [Hpre Hb].
    rewrite place_bids_snoc. apply round_shape_step; [exact Hh| |auto].
    inversion Hb; assumption.
Qed.

(** C7, as stated, fails: in the open [ACTIVE] room (base price 100, no
    leader) two bids of 150 whose [teamId] is [null] are both applied; the
    second one, applied after the first applied bid, leaves [currentBid] at
    150 instead of raising it, and the final [currentBid] 150 is neither
    the base price nor above the earlier standing bid 150 kept in
    [bidHistory]. *)
Lemma equal_bids_without_team :
  let bids := [(JNull, 150); (JNull, 150)] in
  status open_room = ACTIVE /\
  accepted_bids open_room bids = bids /\
  accepted_bids open_room [(JNull, 150)] <> [] /\
  bid_refused (place_bids open_room [(JNull, 150)]) 150 = false /\
  ~ currentBid (place_bids open_room [(JNull, 150)])
      < currentBid (place_bids open_room bids) /\
  place_bids open_room bids =
    Room 150 JNull player1 ACTIVE [Frame 100 JNull; Frame 150 JNull] /\
  currentBid (place_bids open_room bids) <> currentBid open_room /\
  ~ Forall (fun f => bid f < currentBid (place_bids open_room bids))
      (bidHistory (place_bids open_room bids)).
Proof.
  cbv zeta. change (place_bids open_room [(JNull, 150); (JNull, 150)])
    with (Room 150 JNull player1 ACTIVE [Frame 100 JNull; Frame 150 JNull]).
  change (place_bids open_room [(JNull, 150)])
    with (Room 150 JNull player1 ACTIVE [Frame 100 JNull]).
  simpl currentBid. simpl bidHistory.
  split; [reflexivity|]. split; [reflexivity|]. split; [discriminate|].
  split; [reflexivity|]. split; [lia|]. split; [reflexivity|].
  split; [discriminate|].
  intros H. apply Forall_cons in H. destruct H as [_ H].
  apply Forall_cons in H. destruct H as [H _]. simpl in H. lia.
Qed.

(** C7, amended: over any run of [place_bid] calls (no other action in
    between) [currentBid] never decreases, in an [ACTIVE] room as in any
    other.  When every call names a team ([teamId] is not [null]), every
    bid applied after the first applied one raises [currentBid] strictly,
    and in a run from a round with empty history [currentBid] is the
    base price or exceeds every earlier standing bid of the round. *)
Theorem currentBid_rises (state : RoomState) (bids : list (ident * Z)) :
  (forall pre b post, bids = pre ++ b :: post ->
     currentBid (place_bids state pre)
       <= currentBid (place_bids state (pre ++ [b]))) /\
  (Forall (fun b => fst b <> JNull) bids ->
     (forall pre b post, bids = pre ++ b :: post ->
        accepted_bids state pre <> [] ->
        bid_refused (place_bids state pre) (snd b) = false ->
        currentBid (place_bids state pre)
          < currentBid (place_bids state (pre ++ [b]))) /\
     (bidHistory state = [] ->
        currentBid (place_bids state bids) = currentBid state \/
        Forall (fun f => bid f < currentBid (place_bids state bids))
          (bidHistory (place_bids state bids)))).
Proof.
  split.
  - intros pre b post _. rewrite place_bids_snoc. apply place_bid_monotone.
  - intros Hbids. split.
    + intros pre b post -> Hacc Hr. rewrite place_bids_snoc.
      apply place_bid_strict; [|exact Hr].
      apply leader_after_accepted; [|exact Hacc].
      apply Forall_app in Hbids. apply Hbids.
    + intros Hh. destruct (round_shape_run state bids Hh Hbids)
        as [-> | (_ & _ & H)]; [left; reflexivity|exact H].
Qed.

Lemma currentBid_rises_witness :
  let bids := [(teamA, 100); (teamB, 100); (teamB, 150)] in
  currentBid (place_bids open_room [(teamA, 100); (teamB, 100)])
    < currentBid (place_bids open_room bids) /\
  (currentBid (place_bids open_room bids) = currentBid open_room \/
   Forall (fun f => bid f < currentBid (place_bids open_room bids))
     (bidHistory (place_bids open_room bids))).
Proof.
  intros bids.
  assert (Hbids : Forall (fun b : ident * Z => fst b <> JNull) bids).
  { repeat constructor; discriminate. }
  destruct (currentBid_rises open_room bids) as [_ H].
  destruct (H Hbids) as [Hstrict Hshape]. split.
  - apply (Hstrict [(teamA, 100); (teamB, 100)] (teamB, 150) []);
      [reflexivity|discriminate|reflexivity].
  - apply Hshape. reflexivity.
Defined.

(** ** Rooms of the registry *)

Lemma getRoomState_view (rooms : registry) (auctionId : string) :
  fst (getRoomState rooms auctionId) !! auctionId
  = Some (snd (getRoomState rooms auctionId)).
Proof.
  unfold getRoomState. destruct (rooms !! auctionId) eqn:H; simpl.
  - exact H.
  - apply lookup_insert_eq.
Qed.

Lemma getRoomState_other (rooms : registry) (A B : string) :
  A <> B -> fst (getRoomState rooms A) !! B = rooms !! B.
Proof.
  intros Hne. unfold getRoomState. destruct (rooms !! A); simpl.
  - reflexivity.
  - apply lookup_insert_ne. exact Hne.
Qed.

Lemma room_view_lookup (rooms : registry) (B : string) :
  room_view rooms B = default baseline (rooms !! B).
Proof.
  unfold room_view, getRoomState. destruct (rooms !! B); reflexivity.
Qed.

(** A message rewrites its own room with the handler's result ... *)
Lemma dispatch_own (rooms : registry) (A : string) (a : action) :
  fst (dispatch rooms (A, a)) !! A = Some (fst (handle a (room_view rooms A))).
Proof.
  unfold dispatch, room_view.
  destruct (getRoomState rooms A) as [rooms' state]. simpl.
  destruct (handle a state) as [state' out]. simpl.
  apply lookup_insert_eq.
Qed.

(** ... and no other entry of the registry. *)
Lemma dispatch_other (rooms : registry) (A B : string) (a : action) :
  A <> B -> fst (dispatch rooms (A, a)) !! B = rooms !! B.
Proof.
  intros Hne. unfold dispatch.
  pose proof (getRoomState_other rooms A B Hne) as Hg.
  destruct (getRoomState rooms A) as [rooms' state].
  destruct (handle a state) as [state' out]. simpl in *.
  rewrite lookup_insert_ne by exact Hne. exact Hg.
Qed.

Lemma serve_cons (rooms : registry) msg (msgs : list (string * action)) :
  serve rooms (msg :: msgs) = serve (fst (dispatch rooms msg)) msgs.
Proof. reflexivity. Qed.

(** The view of a room after any interleaving is the run of that room's
    own actions from its earlier view. *)
Lemma serve_room_view (B : string) (msgs : list (string * action)) :
  forall rooms : registry,
  room_view (serve rooms msgs) B
  = run (room_view rooms B) (actions_for B msgs).
Proof.
  induction msgs as [|[A a] msgs IH]; intros rooms; [reflexivity|].
  rewrite serve_cons, IH. unfold actions_for. rewrite filter_cons. simpl.
  destruct (decide (A = B)) as [->|Hne]; simpl.
  - rewrite (room_view_lookup (fst (dispatch rooms (B, a)))), dispatch_own.
    reflexivity.
  - rewrite (room_view_lookup (fst (dispatch rooms (A, a)))),
      (dispatch_other _ _ _ _ Hne), <- room_view_lookup.
    reflexivity.
Qed.

Lemma serve_lookup_other (B : string) (msgs : list (string * action)) :
  Forall (fun msg => fst msg <> B) msgs ->
  forall rooms : registry, serve rooms msgs !! B = rooms !! B.
Proof.
  induction 1 as [|[A a] msgs Hne _ IH]; intros rooms; [reflexivity|].
  rewrite serve_cons, IH. apply dispatch_other. exact Hne.
Qed.

(** C8: for distinct auction identifiers [A] and [B], a message tagged [A]
    leaves room [B]'s entry of the registry, hence its whole state with
    [currentBid] and [leadingTeamId], unchanged, and a message tagged [B]
    leaves room [A]'s; after any interleaved list of messages each room
    shows the state that its own actions alone produce. *)
Theorem rooms_isolated (A B : string) :
  A <> B ->
  forall rooms : registry,
  (forall a : action,
     fst (dispatch rooms (A, a)) !! B = rooms !! B /\
     fst (dispatch rooms (B, a)) !! A = rooms !! A /\
     room_view (fst (dispatch rooms (A, a))) B = room_view rooms B /\
     room_view (fst (dispatch rooms (B, a))) A = room_view rooms A) /\
  (forall msgs : list (string * action),
     room_view (serve rooms msgs) A
       = run (room_view rooms A) (actions_for A msgs) /\
     room_view (serve rooms msgs) B
       = run (room_view rooms B) (actions_for B msgs)).
Proof.
  intros Hne rooms. split.
  - intros a.
    assert (HAB : fst (dispatch rooms (A, a)) !! B = rooms !! B)
      by (apply dispatch_other; exact Hne).
    assert (HBA : fst (dispatch rooms (B, a)) !! A = rooms !! A)
      by (apply dispatch_other; intros ->; apply Hne; reflexivity).
    split; [exact HAB|]. split; [exact HBA|].
    rewrite !room_view_lookup, HAB, HBA. split; reflexivity.
  - intros msgs. split; apply serve_room_view.
Qed.

Lemma rooms_isolated_witness :
  let msgs :=
    [("A", StartPlayer player1 100); ("B", StartPlayer player1 500);
     ("A", PlaceBid teamA 100); ("B", PlaceBid teamB 700);
     ("A", PlaceBid teamB 150); ("B", UndoBid); ("A", SellPlayer);
     ("B", ResetRound)] in
  room_view (serve ∅ msgs) "A" = Room 150 teamB player1 SOLD [] /\
  room_view (serve ∅ msgs) "B" = Room 0 JNull JNull IDLE [].
Proof.
  intros msgs.
  assert (Hne : "A" <> "B") by discriminate.
  destruct (rooms_isolated "A" "B" Hne ∅) as [_ H].
  destruct (H msgs) as [HA HB]. split.
  - rewrite HA. reflexivity.
  - rewrite HB. reflexivity.
Defined.

(** ** Amounts are never negative *)

Lemma amounts_ok_baseline : amounts_ok baseline.
Proof. split; [simpl; lia|constructor]. Qed.

Lemma amounts_ok_undo_bid (state : RoomState) :
  amounts_ok state -> amounts_ok (fst (undo_bid state)).
Proof.
  intros [Hb Hh]. unfold undo_bid.
  destruct (last (bidHistory state)) as [prev|] eqn:Hlast;
    [|split; assumption].
  apply last_Some in Hlast. destruct Hlast as [rest Hrest].
  rewrite Hrest in *. rewrite removelast_snoc.
  apply Forall_app in Hh. destruct Hh as [Hrest_ok Hprev].
  split; simpl; [|exact Hrest_ok].
  inversion Hprev; assumption.
Qed.

Lemma amounts_ok_place_bid (teamId : ident) (amount : Z) (state : RoomState) :
  0 <= amount -> amounts_ok state ->
  amounts_ok (fst (place_bid teamId amount state)).
Proof.
  intros Ha [Hb Hh].
  destruct (bid_refused state amount) eqn:Hr.
  - rewrite (place_bid_dropped _ _ _ Hr). split; assumption.
  - rewrite (place_bid_applied _ _ _ Hr). split; simpl; [exact Ha|].
    apply Forall_app. split; [exact Hh|].
    constructor; [exact Hb|constructor].
Qed.

(** Every action with a non-negative monetary input keeps the amounts of
    the room non-negative. *)
Lemma amounts_ok_handle (a : action) (state : RoomState) :
  money_ok a -> amounts_ok state -> amounts_ok (fst (handle a state)).
Proof.
  intros Hm Hok. destruct a; simpl in *.
  - exact Hok.
  - split; [exact Hm|constructor].
  - apply amounts_ok_place_bid; assumption.
  - apply amounts_ok_undo_bid; assumption.
  - exact Hok.
  - unfold sell_player.
    destruct (truthy (currentPlayerId state) && truthy (leadingTeamId state));
      [|exact Hok].
    split; [apply Hok|constructor].
  - unfold unsell_player. destruct (truthy (currentPlayerId state)); exact Hok.
  - split; [simpl; lia|apply Hok].
Qed.

Lemma amounts_ok_run (acts : list action) :
  Forall money_ok acts ->
  forall state, amounts_ok state -> amounts_ok (run state acts).
Proof.
  induction 1 as [|a acts Ha _ IH]; intros state Hok; [exact Hok|].
  apply IH, amounts_ok_handle; assumption.
Qed.

Lemma actions_for_money_ok (auctionId : string) (msgs : list (string * action)) :
  Forall (fun msg => money_ok (snd msg)) msgs ->
  Forall money_ok (actions_for auctionId msgs).
Proof.
  induction 1 as [|[A a] msgs Ha _ IH]; [constructor|].
  unfold actions_for. rewrite filter_cons. simpl.
  destruct (decide (A = auctionId)); [|exact IH].
  constructor; [exact Ha|exact IH].
Qed.

(** C9: with non-negative monetary inputs ([basePrice] of [start_player],
    [amount] of [place_bid]), [currentBid >= 0] holds in the initial room
    state, after every action on a room whose amounts (standing bid and
    kept frames) are non-negative, which the action keeps so, and hence in
    every room of the registry after any list of messages served from the
    empty registry. *)
Theorem currentBid_nonneg :
  0 <= currentBid baseline /\
  (forall (a : action) (state : RoomState),
     money_ok a -> amounts_ok state ->
     0 <= currentBid (fst (handle a state)) /\
     amounts_ok (fst (handle a state))) /\
  (forall acts : list action,
     Forall money_ok acts -> 0 <= currentBid (run baseline acts)) /\
  (forall (msgs : list (string * action)) (auctionId : string),
     Forall (fun msg => money_ok (snd msg)) msgs ->
     0 <= currentBid (room_view (serve ∅ msgs) auctionId)).
Proof.
  split; [simpl; lia|].
  split.
  { intros a state Hm Hok. split; [|apply amounts_ok_handle; assumption].
    apply (amounts_ok_handle a state Hm Hok). }
  split.
  { intros acts Hacts.
    apply (amounts_ok_run acts Hacts baseline amounts_ok_baseline). }
  intros msgs auctionId Hmsgs. rewrite serve_room_view.
  pose proof (actions_for_money_ok auctionId msgs Hmsgs) as Hacts.
  rewrite room_view_lookup, lookup_empty. simpl.
  apply (amounts_ok_run _ Hacts baseline amounts_ok_baseline).
Qed.

Lemma currentBid_nonneg_witness :
  0 <= currentBid
         (run baseline
            [StartPlayer player1 100; PlaceBid teamA 100; PlaceBid teamB 150;
             UndoBid; TogglePause; TogglePause; SellPlayer; UnsellPlayer;
             ResetRound; UndoBid]).
Proof.
  apply currentBid_nonneg.
  repeat constructor; simpl; lia.
Defined.

(** ** Broadcasts and persistence calls *)

(** X1: an action broadcasts at most one [auction_state]; the snapshot it
    carries is the state the action leaves in the room; and an action that
    changes the room state in any field does broadcast it. *)
Theorem broadcast_is_result (a : action) (state : RoomState) :
  (forall snapshot,
     emit_auction_state snapshot ∈ snd (handle a state) ->
     snapshot = fst (handle a state)) /\
  (fst (handle a state) <> state ->
   emit_auction_state (fst (handle a state)) ∈ snd (handle a state)) /\
  (length (List.filter is_broadcast (snd (handle a state))) <= 1)%nat.
Proof.
  assert (Hin1 : forall (st : RoomState) (snapshot : RoomState),
            emit_auction_state snapshot ∈ [emit_auction_state st] ->
            snapshot = st).
  { intros st snapshot H. apply list_elem_of_singleton in H. congruence. }
  destruct a; simpl.
  - (* join *)
    split; [|split; [congruence|]].
    + intros snapshot H. apply list_elem_of_singleton in H. discriminate.
    + simpl. lia.
  - (* start_player *)
    split; [apply Hin1|]. split; [intros _; apply list_elem_of_here|].
    simpl. lia.
  - (* place_bid *)
    destruct (bid_refused state amount) eqn:Hr.
    + rewrite (place_bid_dropped _ _ _ Hr). simpl.
      split; [intros s H; inversion H|]. split; [congruence|lia].
    + rewrite (place_bid_applied _ _ _ Hr). simpl.
      split; [apply Hin1|]. split; [intros _; apply list_elem_of_here|].
      simpl. lia.
  - (* undo_bid *)
    unfold undo_bid. destruct (last (bidHistory state)); simpl.
    + split; [apply Hin1|]. split; [intros _; apply list_elem_of_here|].
      simpl. lia.
    + split; [intros s H; inversion H|]. split; [congruence|lia].
  - (* toggle_pause *)
    split; [apply Hin1|]. split; [intros _; apply list_elem_of_here|].
    simpl. lia.
  - (* sell_player *)
    unfold sell_player.
    destruct (truthy (currentPlayerId state) && truthy (leadingTeamId state));
      simpl.
    + split; [|split; [intros _; apply list_elem_of_here|]].
      * intros snapshot H. apply elem_of_cons in H.
        destruct H as [H|H]; [congruence|].
        apply elem_of_cons in H. destruct H as [H|H]; [discriminate|].
        apply list_elem_of_singleton in H. discriminate.
      * simpl. lia.
    + split; [intros s H; inversion H|]. split; [congruence|lia].
  - (* unsell_player *)
    unfold unsell_player. destruct (truthy (currentPlayerId state)); simpl.
    + split; [|split; [intros _; apply list_elem_of_here|]].
      * intros snapshot H. apply elem_of_cons in H.
        destruct H as [H|H]; [congruence|].
        apply list_elem_of_singleton in H. discriminate.
      * simpl. lia.
    + split; [intros s H; inversion H|]. split; [congruence|lia].
  - (* reset_round *)
    split; [apply Hin1|]. split; [intros _; apply list_elem_of_here|].
    simpl. lia.
Qed.

Lemma broadcast_is_result_witness :
  emit_auction_state led_room ∈ snd (handle (PlaceBid teamA 100) open_room).
Proof.
  apply (proj1 (proj2 (broadcast_is_result (PlaceBid teamA 100) open_room))).
  discriminate.
Defined.

(** X2: a sale is committed only by [sell_player], for the player on the
    block to the leading team at the standing bid, both of them truthy;
    the same handler run adds exactly that price to that team's spend and
    that player to its roster, and leaves the room [SOLD]. *)
Theorem sale_calls_agree
  (a : action) (state : RoomState) (playerId teamId : ident) (price : Z) :
  update_player_sold playerId teamId price ∈ snd (handle a state) ->
  a = SellPlayer /\
  playerId = currentPlayerId state /\ truthy playerId = true /\
  teamId = leadingTeamId state /\ truthy teamId = true /\
  price = currentBid state /\
  update_team_bought teamId price playerId ∈ snd (handle a state) /\
  status (fst (handle a state)) = SOLD.
Proof.
  intros Hin. destruct a; simpl in Hin.
  - apply list_elem_of_singleton in Hin. discriminate.
  - apply list_elem_of_singleton in Hin. discriminate.
  - destruct (bid_refused state amount) eqn:Hr.
    + rewrite (place_bid_dropped _ _ _ Hr) in Hin. inversion Hin.
    + rewrite (place_bid_applied _ _ _ Hr) in Hin.
      apply list_elem_of_singleton in Hin. discriminate.
  - unfold undo_bid in Hin. destruct (last (bidHistory state));
      [apply list_elem_of_singleton in Hin; discriminate|inversion Hin].
  - apply list_elem_of_singleton in Hin. discriminate.
  - simpl. unfold sell_player in *.
    destruct (truthy (currentPlayerId state)) eqn:Hp;
      [|simpl in Hin; inversion Hin].
    destruct (truthy (leadingTeamId state)) eqn:Ht;
      [|simpl in Hin; inversion Hin].
    simpl in *. apply elem_of_cons in Hin. destruct Hin as [Hin|Hin];
      [discriminate|].
    apply elem_of_cons in Hin. destruct Hin as [Hin|Hin].
    + injection Hin as -> -> ->.
      repeat (split; [first [reflexivity|assumption]|]).
      split; [|reflexivity].
      apply list_elem_of_further, list_elem_of_further, list_elem_of_here.
    + apply list_elem_of_singleton in Hin. discriminate.
  - unfold unsell_player in Hin. destruct (truthy (currentPlayerId state)).
    + simpl in Hin. apply elem_of_cons in Hin. destruct Hin as [Hin|Hin];
        [discriminate|].
      apply list_elem_of_singleton in Hin. discriminate.
    + inversion Hin.
  - apply list_elem_of_singleton in Hin. discriminate.
Qed.

Lemma sale_calls_agree_witness :
  update_team_bought teamA 100 player1 ∈ snd (handle SellPlayer led_room).
Proof.
  apply (sale_calls_agree SellPlayer led_room player1 teamA 100).
  apply list_elem_of_further, list_elem_of_here.
Defined.

(** X3: [sell_player] does not look at [status]: on the room it has just
    sold it passes its guard again, leaves the state as it is and issues
    the same broadcast and the same two persistence calls once more, so the
    team's spend is incremented a second time. *)
Theorem sell_player_repeats (state : RoomState) :
  sell_player (fst (sell_player state)) =
    (fst (sell_player state), snd (sell_player state)) /\
  (snd (sell_player state) <> [] ->
   update_team_bought (leadingTeamId state) (currentBid state)
     (currentPlayerId state)
   ∈ snd (sell_player (fst (sell_player state)))).
Proof.
  unfold sell_player.
  destruct (truthy (currentPlayerId state) && truthy (leadingTeamId state))
    eqn:Hg; simpl.
  - rewrite Hg. simpl. split; [reflexivity|]. intros _.
    apply list_elem_of_further, list_elem_of_further, list_elem_of_here.
  - rewrite Hg. simpl. split; [reflexivity|]. intros H. contradiction.
Qed.

Lemma sell_player_repeats_witness :
  update_team_bought teamA 100 player1
  ∈ snd (sell_player (fst (sell_player led_room))).
Proof.
  apply (proj2 (sell_player_repeats led_room)). discriminate.
Defined.

(** X4: [unsell_player] does nothing (no change, no broadcast, no
    persistence call) when [currentPlayerId] is [null], [undefined] or the
    empty string; otherwise it sets [status] to [UNSOLD], keeps every other
    field, [bidHistory] and the leader included, broadcasts the state and
    marks that player unsold. *)
Theorem unsell_player_guarded (state : RoomState) :
  (currentPlayerId state = JNull \/ currentPlayerId state = JUndefined \/
   currentPlayerId state = JStr EmptyString ->
   unsell_player state = (state, [])) /\
  (forall player : string,
     currentPlayerId state = JStr player -> player <> EmptyString ->
     let unsold :=
       {| currentBid := currentBid state;
          leadingTeamId := leadingTeamId state;
          currentPlayerId := JStr player;
          status := UNSOLD;
          bidHistory := bidHistory state |} in
     unsell_player state =
       (unsold, [emit_auction_state unsold;
                 update_player_unsold (JStr player)])).
Proof.
  split.
  - unfold unsell_player. intros [-> | [-> | ->]]; reflexivity.
  - intros player Hp Hne. destruct state as [b l p s h]. simpl in *. subst p.
    destruct player; [contradiction|]. reflexivity.
Qed.

Lemma unsell_player_guarded_witness :
  unsell_player baseline = (baseline, []) /\
  unsell_player led_room =
    (Room 100 teamA player1 UNSOLD [Frame 100 JNull],
     [emit_auction_state (Room 100 teamA player1 UNSOLD [Frame 100 JNull]);
      update_player_unsold player1]).
Proof.
  split.
  - apply (proj1 (unsell_player_guarded baseline)). left. reflexivity.
  - apply (proj2 (unsell_player_guarded led_room) "player1");
      [reflexivity|discriminate].
Defined.

(** X5: no handler decides anything by [status].  Running an action on a
    room and on the same room with any other [status] gives the same
    [currentBid], [leadingTeamId], [currentPlayerId] and [bidHistory] and
    as many effects; only the resulting [status] can differ. *)
Theorem status_never_gates (a : action) (other : Status) (state : RoomState) :
  let here := handle a state in
  let there := handle a (set_status other state) in
  currentBid (fst there) = currentBid (fst here) /\
  leadingTeamId (fst there) = leadingTeamId (fst here) /\
  currentPlayerId (fst there) = currentPlayerId (fst here) /\
  bidHistory (fst there) = bidHistory (fst here) /\
  length (snd there) = length (snd here).
Proof.
  destruct state as [b l p s h]. destruct a; simpl.
  - repeat split.
  - repeat split.
  - unfold place_bid, bid_refused, set_status. simpl.
    destruct (if is_null l then amount <? b else amount <=? b);
      repeat split.
  - unfold undo_bid, set_status. simpl. destruct (last h); repeat split.
  - repeat split.
  - unfold sell_player, set_status. simpl.
    destruct (truthy p && truthy l); repeat split.
  - unfold unsell_player, set_status. simpl.
    destruct (truthy p); repeat split.
  - repeat split.
Qed.

(** X6: which fields an action can touch.  [currentPlayerId] changes only
    under [start_player] and [reset_round]; [currentBid] and
    [leadingTeamId] never change under [toggle_pause], [sell_player],
    [unsell_player] or a join; [status] never changes under [place_bid],
    [undo_bid] or a join. *)
Theorem handlers_frame (a : action) (state : RoomState) :
  (currentPlayerId (fst (handle a state)) <> currentPlayerId state ->
   (exists playerId basePrice, a = StartPlayer playerId basePrice) \/
   a = ResetRound) /\
  (a = TogglePause \/ a = SellPlayer \/ a = UnsellPlayer \/ a = Join ->
   currentBid (fst (handle a state)) = currentBid state /\
   leadingTeamId (fst (handle a state)) = leadingTeamId state) /\
  ((exists teamId amount, a = PlaceBid teamId amount) \/ a = UndoBid \/
   a = Join ->
   status (fst (handle a state)) = status state).
Proof.
  split; [|split].
  - intros Hne. destruct a; simpl in Hne.
    + contradiction.
    + left. eauto.
    + exfalso. apply Hne. unfold place_bid.
      destruct (bid_refused state amount); reflexivity.
    + exfalso. apply Hne. unfold undo_bid.
      destruct (last (bidHistory state)); reflexivity.
    + contradiction.
    + exfalso. apply Hne. unfold sell_player.
      destruct (truthy (currentPlayerId state) && truthy (leadingTeamId state));
        reflexivity.
    + exfalso. apply Hne. unfold unsell_player.
      destruct (truthy (currentPlayerId state)); reflexivity.
    + right. reflexivity.
  - intros [-> | [-> | [-> | ->]]]; simpl.
    + split; reflexivity.
    + unfold sell_player.
      destruct (truthy (currentPlayerId state) && truthy (leadingTeamId state));
        split; reflexivity.
    + unfold unsell_player.
      destruct (truthy (currentPlayerId state)); split; reflexivity.
    + split; reflexivity.
  - intros [(teamId & amount & ->) | [-> | ->]]; simpl.
    + unfold place_bid. destruct (bid_refused state amount); reflexivity.
    + unfold undo_bid. destruct (last (bidHistory state)); reflexivity.
    + reflexivity.
Qed.

Lemma handlers_frame_witness :
  status (fst (handle (PlaceBid teamB 150) led_room)) = ACTIVE /\
  currentBid (fst (handle SellPlayer led_room)) = 100.
Proof.
  split.
  - apply (proj2 (proj2 (handlers_frame (PlaceBid teamB 150) led_room))).
    left. eauto.
  - apply (proj1 (proj2 (handlers_frame SellPlayer led_room))).
    right. left. reflexivity.
Defined.

(** ** Rounds: bids, undo and the history *)

Lemma run_cons (state : RoomState) (a : action) (acts : list action) :
  run state (a :: acts) = run (fst (handle a state)) acts.
Proof. reflexivity. Qed.

Lemma run_snoc (state : RoomState) (acts : list action) (a : action) :
  run state (acts ++ [a]) = fst (handle a (run state acts)).
Proof. unfold run. rewrite foldl_snoc. reflexivity. Qed.

Lemma accepted_bids_app (pre post : list (ident * Z)) :
  forall state,
  accepted_bids state (pre ++ post) =
  accepted_bids state pre ++ accepted_bids (place_bids state pre) post.
Proof.
  induction pre as [|b pre IH]; intros state; [reflexivity|].
  rewrite place_bids_cons. cbn [app accepted_bids].
  destruct (bid_refused state (snd b)); rewrite IH; reflexivity.
Qed.

Lemma accepted_bids_snoc (state : RoomState) (pre : list (ident * Z)) b :
  accepted_bids state (pre ++ [b]) =
  accepted_bids state pre ++
    (if bid_refused (place_bids state pre) (snd b) then [] else [b]).
Proof.
  rewrite accepted_bids_app. simpl.
  destruct (bid_refused (place_bids state pre) (snd b)); reflexivity.
Qed.

(** Undo right after an applied bid gives the earlier state back. *)
Lemma undo_bid_after_applied (teamId : ident) (amount : Z) (state : RoomState) :
  bid_refused state amount = false ->
  fst (undo_bid (fst (place_bid teamId amount state))) = state.
Proof.
  intros Hr. rewrite (place_bid_applied _ _ _ Hr). unfold undo_bid. simpl.
  rewrite last_snoc, removelast_snoc. simpl. destruct state; reflexivity.
Qed.

(** X7: after any run of [place_bid] calls, as many [undo_bid] calls as
    there were applied bids give back the room state from before the run,
    whatever that state was. *)
Theorem undo_all_bids (state : RoomState) (bids : list (ident * Z)) :
  run (place_bids state bids)
    (replicate (length (accepted_bids state bids)) UndoBid) = state.
Proof.
  induction bids as [|b pre IH] using rev_ind; [reflexivity|].
  rewrite place_bids_snoc, accepted_bids_snoc.
  destruct (bid_refused (place_bids state pre) (snd b)) eqn:Hr.
  - rewrite (place_bid_dropped _ _ _ Hr), app_nil_r. exact IH.
  - rewrite length_app. simpl. rewrite Nat.add_1_r. simpl replicate.
    rewrite run_cons. simpl handle.
    rewrite (undo_bid_after_applied _ _ _ Hr). exact IH.
Qed.

(** X8: every applied bid adds exactly one frame to [bidHistory] and a
    refused bid none, so after a run of bids the history has grown by the
    number of applied bids; in a round just opened by [start_player] its
    length is that number. *)
Theorem bidHistory_counts_bids (state : RoomState) (bids : list (ident * Z)) :
  length (bidHistory (place_bids state bids)) =
    (length (bidHistory state) + length (accepted_bids state bids))%nat /\
  forall playerId basePrice,
    length (bidHistory
              (place_bids (fst (start_player playerId basePrice state)) bids)) =
    length (accepted_bids (fst (start_player playerId basePrice state)) bids).
Proof.
  assert (H : forall st,
            length (bidHistory (place_bids st bids)) =
            (length (bidHistory st) + length (accepted_bids st bids))%nat).
  { intros st. induction bids as [|b pre IH] using rev_ind; [simpl; lia|].
    rewrite place_bids_snoc, accepted_bids_snoc, length_app.
    destruct (bid_refused (place_bids st pre) (snd b)) eqn:Hr.
    - rewrite (place_bid_dropped _ _ _ Hr). simpl. lia.
    - rewrite (place_bid_applied _ _ _ Hr). simpl. rewrite length_app.
      simpl. lia. }
  split; [apply H|]. intros playerId basePrice. rewrite H. reflexivity.
Qed.

(** X9: after a run of bids the standing bid and the leader are those of
    the last applied bid; when none was applied the room is as before. *)
Theorem last_applied_bid_stands (state : RoomState) (bids : list (ident * Z)) :
  match last (accepted_bids state bids) with
  | Some (teamId, amount) =>
      currentBid (place_bids state bids) = amount /\
      leadingTeamId (place_bids state bids) = teamId
  | None => place_bids state bids = state
  end.
Proof.
  induction bids as [|b pre IH] using rev_ind; [reflexivity|].
  rewrite place_bids_snoc, accepted_bids_snoc.
  destruct (bid_refused (place_bids state pre) (snd b)) eqn:Hr.
  - rewrite (place_bid_dropped _ _ _ Hr), app_nil_r. exact IH.
  - rewrite last_snoc, (place_bid_applied _ _ _ Hr). destruct b as [t m].
    split; reflexivity.
Qed.

(** X10: a bid that names a team can be delivered twice without harm: the
    second delivery of the same [(teamId, amount)] is refused, silently,
    whether the first one was applied or not. *)
Theorem duplicate_bid_dropped (teamId : ident) (amount : Z) (state : RoomState) :
  teamId <> JNull ->
  place_bid teamId amount (fst (place_bid teamId amount state)) =
    (fst (place_bid teamId amount state), []).
Proof.
  intros Ht. destruct (bid_refused state amount) eqn:Hr.
  - rewrite (place_bid_dropped _ _ _ Hr). simpl.
    apply place_bid_dropped. exact Hr.
  - rewrite (place_bid_applied _ _ _ Hr). simpl.
    apply place_bid_dropped, bid_refused_true. right. simpl.
    split; [exact Ht|lia].
Qed.

Lemma duplicate_bid_dropped_witness :
  place_bid teamA 100 (fst (place_bid teamA 100 open_room)) = (led_room, []).
Proof.
  apply (duplicate_bid_dropped teamA 100 open_room). discriminate.
Defined.

Lemma round_frames_place_bid
  (basePrice : Z) (teamId : ident) (amount : Z) (state : RoomState) :
  teamId <> JNull ->
  round_frames basePrice state ->
  round_frames basePrice (fst (place_bid teamId amount state)).
Proof.
  intros Ht Hrf. destruct (bid_refused state amount) eqn:Hr.
  { rewrite (place_bid_dropped _ _ _ Hr). exact Hrf. }
  rewrite (place_bid_applied _ _ _ Hr). unfold round_frames in *. simpl.
  destruct (bidHistory state) as [|f rest]; simpl.
  - destruct Hrf as [-> ->]. split; [reflexivity|]. split; [constructor|exact Ht].
  - destruct Hrf as (Hf & Hrest & Hl). split; [exact Hf|]. split; [|exact Ht].
    apply Forall_app. split; [exact Hrest|].
    constructor; [exact Hl|constructor].
Qed.

Lemma round_frames_undo_bid (basePrice : Z) (state : RoomState) :
  round_frames basePrice state ->
  round_frames basePrice (fst (undo_bid state)).
Proof.
  intros Hrf. unfold undo_bid, round_frames in *.
  destruct (bidHistory state) as [|f rest] eqn:Hh.
  { simpl. rewrite Hh. exact Hrf. }
  destruct Hrf as (Hf & Hrest & Hl).
  destruct rest as [|g rest _] using rev_ind.
  - simpl. subst f. split; reflexivity.
  - rewrite app_comm_cons, last_snoc, removelast_snoc. simpl.
    apply Forall_app in Hrest. destruct Hrest as [Hrest Hg].
    split; [exact Hf|]. split; [exact Hrest|].
    inversion Hg; assumption.
Qed.

Lemma round_frames_handle (basePrice : Z) (a : action) (state : RoomState) :
  in_round a ->
  round_frames basePrice state ->
  round_frames basePrice (fst (handle a state)) /\
  currentPlayerId (fst (handle a state)) = currentPlayerId state.
Proof.
  intros Ha Hrf. destruct a; simpl in *; try contradiction.
  - split; [exact Hrf|reflexivity].
  - split; [apply round_frames_place_bid; assumption|].
    unfold place_bid. destruct (bid_refused state amount); reflexivity.
  - split; [apply round_frames_undo_bid; assumption|].
    unfold undo_bid. destruct (last (bidHistory state)); reflexivity.
  - split; [exact Hrf|reflexivity].
  - unfold unsell_player. destruct (truthy (currentPlayerId state));
      (split; [exact Hrf|reflexivity]).
Qed.

Lemma round_frames_run (basePrice : Z) (acts : list action) :
  Forall in_round acts ->
  forall state, round_frames basePrice state ->
  round_frames basePrice (run state acts) /\
  currentPlayerId (run state acts) = currentPlayerId state.
Proof.
  induction 1 as [|a acts Ha _ IH]; intros state Hrf;
    [split; [exact Hrf|reflexivity]|].
  rewrite run_cons.
  destruct (round_frames_handle basePrice a state Ha Hrf) as [Hrf' Hp].
  destruct (IH _ Hrf') as [Hrf'' Hp'].
  split; [exact Hrf''|]. rewrite Hp'. exact Hp.
Qed.

(** X11: inside a round (after [start_player], under bids that name a
    team, undos, pause toggles, unsells and joins) [leadingTeamId] is
    [null] exactly when [bidHistory] is empty, and then [currentBid] is
    the round's base price: undoing back to the start restores it.  The
    player on the block stays the one of [start_player]. *)
Theorem round_leader_iff_history
  (playerId : ident) (basePrice : Z) (before : RoomState)
  (acts : list action) :
  Forall in_round acts ->
  let state := run (fst (start_player playerId basePrice before)) acts in
  (leadingTeamId state = JNull <-> bidHistory state = []) /\
  (bidHistory state = [] -> currentBid state = basePrice) /\
  currentPlayerId state = playerId.
Proof.
  intros Hacts state.
  assert (Hstart : round_frames basePrice
                     (fst (start_player playerId basePrice before))).
  { split; reflexivity. }
  destruct (round_frames_run basePrice acts Hacts _ Hstart) as [Hrf Hp].
  fold state in Hrf, Hp. unfold round_frames in Hrf.
  split; [|split; [|exact Hp]].
  - destruct (bidHistory state) as [|f rest].
    + split; [reflexivity|]. intros _. apply Hrf.
    + destruct Hrf as (_ & _ & Hl). split; [contradiction|discriminate].
  - intros Hh. rewrite Hh in Hrf. apply Hrf.
Qed.

Lemma round_leader_iff_history_witness :
  let state :=
    run (fst (start_player player1 100 baseline))
      [PlaceBid teamA 100; PlaceBid teamB 150; TogglePause; UndoBid;
       UndoBid] in
  leadingTeamId state = JNull /\ currentBid state = 100.
Proof.
  intros state.
  assert (Hacts : Forall in_round
            [PlaceBid teamA 100; PlaceBid teamB 150; TogglePause; UndoBid;
             UndoBid]).
  { repeat constructor; discriminate. }
  destruct (round_leader_iff_history player1 100 baseline _ Hacts)
    as (Hiff & Hbase & _).
  split.
  - apply Hiff. reflexivity.
  - apply Hbase. reflexivity.
Defined.

(** X12: undo cannot reach behind a round start or a sale: right after
    [start_player], and right after a [sell_player] that went through,
    [undo_bid] changes nothing and broadcasts nothing; and right after
    [start_player] there is no leader, so [sell_player] does nothing
    either. *)
Theorem undo_stops_at_round_start
  (playerId : ident) (basePrice : Z) (state : RoomState) :
  undo_bid (fst (start_player playerId basePrice state)) =
    (fst (start_player playerId basePrice state), []) /\
  sell_player (fst (start_player playerId basePrice state)) =
    (fst (start_player playerId basePrice state), []) /\
  (snd (sell_player state) <> [] ->
   undo_bid (fst (sell_player state)) = (fst (sell_player state), [])).
Proof.
  split; [reflexivity|]. split.
  - unfold sell_player. simpl. rewrite andb_false_r. reflexivity.
  - unfold sell_player.
    destruct (truthy (currentPlayerId state) && truthy (leadingTeamId state));
      simpl; [reflexivity|contradiction].
Qed.

Lemma undo_stops_at_round_start_witness :
  undo_bid (fst (sell_player led_room)) = (Room 100 teamA player1 SOLD [], []).
Proof.
  apply (undo_stops_at_round_start player1 100 led_room). discriminate.
Defined.

(** ** The registry: creation, joins and independent rooms *)

Lemma dispatch_dom (rooms : registry) (A : string) (a : action) :
  dom (fst (dispatch rooms (A, a))) = {[A]} ∪ dom rooms.
Proof.
  unfold dispatch, getRoomState.
  destruct (rooms !! A) as [state|] eqn:HA;
    destruct (handle a _) as [state' out]; simpl;
    rewrite !dom_insert_L; [reflexivity|].
  rewrite (assoc_L (∪)), (idemp_L (∪)). reflexivity.
Qed.

(** X13: [getRoomState] gets or creates.  It returns the stored state of a
    known auction and leaves the registry as it is; for an unknown one it
    stores and returns the [IDLE] baseline; the room it returns is always
    the registry's entry afterwards; a second call returns the same room
    and changes nothing; and creating a room never changes what any room
    shows. *)
Theorem getRoomState_get_or_create (rooms : registry) (A : string) :
  (forall state, rooms !! A = Some state ->
     getRoomState rooms A = (rooms, state)) /\
  (rooms !! A = None ->
     getRoomState rooms A = (<[A := baseline]> rooms, baseline)) /\
  fst (getRoomState rooms A) !! A = Some (snd (getRoomState rooms A)) /\
  getRoomState (fst (getRoomState rooms A)) A = getRoomState rooms A /\
  (forall B, room_view (fst (getRoomState rooms A)) B = room_view rooms B).
Proof.
  split; [|split; [|split; [|split]]].
  - intros state H. unfold getRoomState. rewrite H. reflexivity.
  - intros H. unfold getRoomState. rewrite H. reflexivity.
  - apply getRoomState_view.
  - unfold getRoomState at 2 3. destruct (rooms !! A) as [state|] eqn:HA; simpl.
    + unfold getRoomState. rewrite HA. reflexivity.
    + unfold getRoomState. rewrite lookup_insert_eq. reflexivity.
  - intros B. rewrite !room_view_lookup.
    destruct (decide (A = B)) as [->|Hne].
    + rewrite getRoomState_view. unfold getRoomState.
      destruct (rooms !! B); reflexivity.
    + rewrite (getRoomState_other _ _ _ Hne). reflexivity.
Qed.

Lemma getRoomState_get_or_create_witness :
  getRoomState ∅ "A" = (<["A" := baseline]> ∅, baseline) /\
  getRoomState (<["A" := led_room]> ∅) "A" = (<["A" := led_room]> ∅, led_room).
Proof.
  split.
  - apply (getRoomState_get_or_create ∅ "A"). apply lookup_empty.
  - apply (proj1 (getRoomState_get_or_create (<["A" := led_room]> ∅) "A")).
    apply lookup_insert_eq.
Defined.

(** X14: rooms are created on first reference and never removed: a message
    for [A] leaves the registry with the earlier rooms and [A], and after
    any list of messages the registry holds exactly the rooms it held
    before and those the messages named. *)
Theorem rooms_never_removed (rooms : registry) (msgs : list (string * action)) :
  dom (serve rooms msgs) = dom rooms ∪ list_to_set (fst <$> msgs) /\
  (forall B, is_Some (rooms !! B) -> is_Some (serve rooms msgs !! B)).
Proof.
  assert (H : forall rs : registry,
            dom (serve rs msgs) = dom rs ∪ list_to_set (fst <$> msgs)).
  { induction msgs as [|[A a] msgs IH]; intros rs.
    - simpl. rewrite (right_id_L ∅ (∪)). reflexivity.
    - rewrite serve_cons, IH, dispatch_dom. simpl.
      rewrite (comm_L (∪) {[A]} (dom rs)), <- (assoc_L (∪)). reflexivity. }
  split; [apply H|].
  intros B HB. apply elem_of_dom. rewrite H. apply elem_of_union. left.
  apply elem_of_dom. exact HB.
Qed.

Lemma rooms_never_removed_witness :
  is_Some (serve (<["A" := led_room]> ∅)
             [("B", Join); ("A", ResetRound); ("B", SellPlayer)] !! "A").
Proof.
  apply (rooms_never_removed (<["A" := led_room]> ∅)).
  rewrite lookup_insert_eq. eexists. reflexivity.
Defined.

(** X15: a join reads: it answers the joining socket alone with the state
    the room shows (the [IDLE] baseline for an auction not referenced
    before), broadcasts nothing to the room, and changes what no room
    shows. *)
Theorem join_only_reads (rooms : registry) (A : string) :
  snd (dispatch rooms (A, Join)) = [(A, reply_auction_state (room_view rooms A))] /\
  (forall B, room_view (fst (dispatch rooms (A, Join))) B = room_view rooms B) /\
  (rooms !! A = None -> room_view rooms A = baseline) /\
  (is_Some (rooms !! A) -> fst (dispatch rooms (A, Join)) = rooms).
Proof.
  split; [|split; [|split]].
  - unfold dispatch, room_view. destruct (getRoomState rooms A). reflexivity.
  - intros B. rewrite !room_view_lookup. destruct (decide (A = B)) as [->|Hne].
    + rewrite dispatch_own. simpl. apply room_view_lookup.
    + rewrite (dispatch_other _ _ _ _ Hne). reflexivity.
  - intros H. rewrite room_view_lookup, H. reflexivity.
  - intros [state H]. unfold dispatch, getRoomState. rewrite H. simpl.
    apply insert_id. exact H.
Qed.

Lemma join_only_reads_witness :
  room_view ∅ "A" = baseline /\
  fst (dispatch (<["A" := led_room]> ∅) ("A", Join)) = <["A" := led_room]> ∅.
Proof.
  split.
  - apply (join_only_reads ∅ "A"). apply lookup_empty.
  - apply (join_only_reads (<["A" := led_room]> ∅) "A").
    rewrite lookup_insert_eq. eexists. reflexivity.
Defined.

(** X16: messages for two different rooms commute: handling them in either
    order leaves the same registry, and each of them issues the same
    effects whether it is handled first or second. *)
Theorem dispatch_commutes (rooms : registry) (A B : string) (a b : action) :
  A <> B ->
  fst (dispatch (fst (dispatch rooms (A, a))) (B, b)) =
  fst (dispatch (fst (dispatch rooms (B, b))) (A, a)) /\
  snd (dispatch (fst (dispatch rooms (A, a))) (B, b)) =
  snd (dispatch rooms (B, b)).
Proof.
  intros Hne.
  assert (Hne' : B <> A) by (intros ->; apply Hne; reflexivity).
  assert (Hview : forall (rs : registry) X Y x, X <> Y ->
            room_view (fst (dispatch rs (X, x))) Y = room_view rs Y).
  { intros rs X Y x HXY. rewrite !room_view_lookup.
    rewrite (dispatch_other _ _ _ _ HXY). reflexivity. }
  assert (Hout : forall (rs : registry) X x,
            snd (dispatch rs (X, x)) =
            (fun e => (X, e)) <$> snd (handle x (room_view rs X))).
  { intros rs X x. unfold dispatch, room_view.
    destruct (getRoomState rs X) as [rs' st]. simpl.
    destruct (handle x st). reflexivity. }
  split.
  - apply map_eq. intros i.
    destruct (decide (i = A)) as [->|HiA]; [|destruct (decide (i = B)) as [->|HiB]].
    + rewrite (dispatch_other _ _ _ _ Hne'), !dispatch_own.
      rewrite (Hview _ _ _ _ Hne'). reflexivity.
    + rewrite (dispatch_other _ A B _ Hne), !dispatch_own.
      rewrite (Hview _ _ _ _ Hne). reflexivity.
    + rewrite !dispatch_other by congruence. reflexivity.
  - rewrite !Hout, (Hview _ _ _ _ Hne). reflexivity.
Qed.

Lemma dispatch_commutes_witness :
  fst (dispatch (fst (dispatch ∅ ("A", StartPlayer player1 100)))
         ("B", StartPlayer player1 500)) =
  fst (dispatch (fst (dispatch ∅ ("B", StartPlayer player1 500)))
         ("A", StartPlayer player1 100)).
Proof.
  apply (dispatch_commutes ∅ "A" "B"). discriminate.
Defined.

(** ** What the viewers of a room hold *)

(** An action either broadcasts nothing and leaves the room as it was, or
    broadcasts exactly the state it leaves. *)
Lemma handle_snapshots (a : action) (state : RoomState) :
  (snapshots (snd (handle a state)) = [] /\ fst (handle a state) = state) \/
  snapshots (snd (handle a state)) = [fst (handle a state)].
Proof.
  destruct a; simpl.
  - left. split; reflexivity.
  - right. reflexivity.
  - unfold place_bid. destruct (bid_refused state amount);
      [left; split; reflexivity|right; reflexivity].
  - unfold undo_bid. destruct (last (bidHistory state));
      [right; reflexivity|left; split; reflexivity].
  - right. reflexivity.
  - unfold sell_player.
    destruct (truthy (currentPlayerId state) && truthy (leadingTeamId state));
      [right; reflexivity|left; split; reflexivity].
  - unfold unsell_player. destruct (truthy (currentPlayerId state));
      [right; reflexivity|left; split; reflexivity].
  - right. reflexivity.
Qed.

(** X17: a viewer that has received every broadcast of a room holds the
    room's state: after any run of actions the state of the room is the
    last snapshot broadcast during the run, or the state from before the
    run when nothing was broadcast. *)
Theorem last_broadcast_is_state (acts : list action) :
  forall state : RoomState,
  run state acts = default state (last (broadcast_log state acts)).
Proof.
  induction acts as [|a acts IH]; intros state; [reflexivity|].
  rewrite run_cons, IH. cbn [broadcast_log].
  destruct (handle_snapshots a state) as [[-> ->] | ->]; [reflexivity|].
  simpl app. rewrite last_cons.
  destruct (last (broadcast_log (fst (handle a state)) acts)); reflexivity.
Qed.
